(** * anywidget.experimental: decorators and command dispatch

    A shallow embedding of [src/anywidget/experimental.py].

    The module is glue code around a host widget framework:
    - [widget] stores a mimebundle descriptor on a class;
    - [dataclass] chains [dataclasses.dataclass], [psygnal.evented] and
      [widget];
    - [command] tags a callable;
    - [_collect_commands] gathers the tagged attributes of a widget;
    - [_register_anywidget_commands] registers a message handler that
      dispatches incoming messages to the collected commands.

    Python objects live in a heap and are referred to by location, so
    that "the same object" is a statement about locations.  Exceptions
    and effects are threaded through a state-and-exception monad in
    which the state reached before an exception is kept, as in Python. *)

From stdpp Require Import gmap strings list fin_maps.
From Stdlib Require Import ZArith.

Set Warnings "-register-all".

(** ** Python values *)

(** The values that travel in messages (decoded JSON: numbers are kept
    as integers, the code never computes with them; dicts are keyed by
    strings) and in attributes.  [VInstance] stands for an instance of
    any other class, given by the class name and its fields. *)
Inductive pyval : Type :=
| VNone
| VBool (b : bool)
| VInt (n : Z)
| VStr (s : string)
| VList (items : list pyval)
| VDict (entries : gmap string pyval)
| VInstance (cls : string) (fields : gmap string pyval).

(** [bytes] objects; [buffers] is a [list bytes]. *)
Definition bytes : Type := list Byte.byte.

(** The exceptions the module can meet.  [AssertionError] is the one
    [_collect_commands] suppresses; [Exception name] is any other class
    raised by the host or by user code. *)
Inductive exn : Type :=
| KeyError (key : pyval)
| TypeError (what : string)
| AssertionError
| Exception (name : string).

Inductive outcome (A : Type) : Type :=
| Return (a : A)
| Raise (e : exn).
Arguments Return {A} a.
Arguments Raise {A} e.

(** [x is None] *)
Definition is_none (v : pyval) : bool :=
  match v with VNone => true | _ => false end.

(** [bool(v)] *)
Definition truthy (v : pyval) : bool :=
  match v with
  | VNone => false
  | VBool b => b
  | VInt n => negb (n =? 0)%Z
  | VStr s => negb (String.eqb s "")
  | VList items => match items with [] => false | _ => true end
  | VDict entries => negb (Nat.eqb (size entries) 0)
  | VInstance _ _ => true
  end.

(** [hash(v)] succeeds: lists and dicts are unhashable. *)
Definition hashable (v : pyval) : bool :=
  match v with
  | VList _ | VDict _ => false
  | _ => true
  end.

(** [d.get(key)]: [None] when the key is absent. *)
Definition dict_get (d : gmap string pyval) (key : string) : pyval :=
  default VNone (d !! key).

(** [v != s] for a string literal [s]: only an equal string is equal. *)
Definition str_ne (v : pyval) (s : string) : bool :=
  match v with
  | VStr s' => negb (String.eqb s' s)
  | _ => true
  end.

(** ** State and exceptions *)

(** A computation over a state [S] that returns or raises; the state
    reached so far is kept in both cases. *)
Record M (S A : Type) : Type := MkM { run : S → outcome A * S }.
Arguments MkM {S A} _.
Arguments run {S A} _ _.

Global Instance M_ret {S} : MRet (M S) :=
  λ A a, MkM (λ s, (Return a, s)).

Global Instance M_bind {S} : MBind (M S) :=
  λ A B k m,
    MkM (λ s, match run m s with
              | (Return a, s') => run (k a) s'
              | (Raise e, s') => (Raise e, s')
              end).

Definition raise {S A} (e : exn) : M S A := MkM (λ s, (Raise e, s)).

(** A pure result, returned or raised, as a computation. *)
Definition lift {S A} (o : outcome A) : M S A := MkM (λ s, (o, s)).

Definition modify {S} (f : S → S) : M S unit := MkM (λ s, (Return tt, f s)).

(** [d[key]] on a dict: [KeyError] when the key is absent. *)
Definition getitem {S} (d : gmap string pyval) (key : string) : M S pyval :=
  match d !! key with
  | Some v => mret v
  | None => raise (KeyError (VStr key))
  end.

(** [__dataclass_transform__], which decorates [dataclass] to keep its
    signature for type checkers: whatever its keyword arguments, it
    returns the identity decorator. *)
Definition __dataclass_transform__ (eq_default order_default kw_only_default : bool)
    (field_specifiers : list pyval) {A : Type} : A → A :=
  λ a, a.

(** ** Objects *)

Definition loc : Type := positive.

Section Model.

(** The state of the widget, which a bound command may read and
    write. *)
Variable W : Type.

(** [_AnyWidgetCommandBound]: what calling a bound command does.  It
    takes the message payload and the buffers and, as its annotation
    says, returns a pair of a response and buffers; it may also raise,
    and it may read and write the widget state. *)
Definition _AnyWidgetCommandBound : Type :=
  pyval → list bytes → M W (pyval * list bytes).

(** An object: its attribute dictionary and, when it is callable,
    what calling it does.  Classes and functions are such objects, and
    assigning to an attribute of one always succeeds. *)
Record pyobj : Type := PyObj {
  obj_attrs : gmap string pyval;
  obj_call : option _AnyWidgetCommandBound;
}.

(** [callable(o)] *)
Definition callable (o : pyobj) : bool :=
  match obj_call o with Some _ => true | None => false end.

(** [getattr(o, name, default)] *)
Definition getattr_default (o : pyobj) (name : string) (dflt : pyval) : pyval :=
  default dflt (obj_attrs o !! name).

Definition set_attribute (name : string) (v : pyval) (o : pyobj) : pyobj :=
  {| obj_attrs := <[name := v]> (obj_attrs o); obj_call := obj_call o |}.

(** [setattr(o, name, v)] on the object at location [o]. *)
Definition setattr (o : loc) (name : string) (v : pyval) : M (gmap loc pyobj) unit :=
  modify (alter (set_attribute name v) o).

(** ** [widget] and [dataclass] *)

(** What [dataclass] returns: the decorated class when [cls] was
    given, the decorator otherwise. *)
Inductive decorated : Type :=
| Class (cls : loc)
| Decorator (d : loc → M (gmap loc pyobj) loc).

Section Decorators.

(** The constructor of [MimeBundleDescriptor], from [._descriptor],
    applied to keyword arguments. *)
Variable MimeBundleDescriptor : gmap string pyval → pyval.
(** [dataclasses.dataclass], applied to a class and keyword
    arguments, and [psygnal.evented], applied to a class:
    library calls that may change the heap, return a class, or raise. *)
Variable dataclasses_dataclass : loc → gmap string pyval → M (gmap loc pyobj) loc.
Variable psygnal_evented : loc → M (gmap loc pyobj) loc.

Definition widget (esm css : pyval) (kwargs : gmap string pyval)
  : loc → M (gmap loc pyobj) loc :=
  let kwargs := <["_esm" := esm]> kwargs in
  let kwargs := if negb (is_none css) then <["_css" := css]> kwargs else kwargs in
  let _decorator (cls : loc) : M (gmap loc pyobj) loc :=
    setattr cls "_repr_mimebundle_" (MimeBundleDescriptor kwargs);;
    mret cls in
  _decorator.

(** [dataclass] is itself decorated with [__dataclass_transform__],
    which returns the identity and so leaves it as defined here. *)
Definition dataclass (cls : option loc) (esm css : pyval)
    (dataclass_kwargs : gmap string pyval) : M (gmap loc pyobj) decorated :=
  let _decorator (cls : loc) : M (gmap loc pyobj) loc :=
    cls ← dataclasses_dataclass cls dataclass_kwargs;
    cls ← psygnal_evented cls;
    cls ← widget esm css ∅ cls;
    mret cls in
  match cls with
  | Some cls => cls ← _decorator cls; mret (Class cls)
  | None => mret (Decorator _decorator)
  end.

End Decorators.

(** ** [command] *)

Definition _ANYWIDGET_COMMAND : string := "_anywidget_command".

Definition command (cmd : loc) : M (gmap loc pyobj) loc :=
  setattr cmd _ANYWIDGET_COMMAND (VBool true);;
  mret cmd.

(** ** [_collect_commands] *)

(** The part of a widget the module uses: [dir(widget)] and
    [getattr(widget, name)], which returns the attribute or raises. *)
Record WidgetBase : Type := {
  w_dir : list string;
  w_getattr : string → outcome pyobj;
}.

(** The [for] loop of [_collect_commands] over the names still to
    visit, with the dict built so far. *)
Fixpoint collect_loop (widget : WidgetBase) (names : list string)
    (cmds : gmap string pyobj) : outcome (gmap string pyobj) :=
  match names with
  | [] => Return cmds
  | attr_name :: names =>
      match w_getattr widget attr_name with
      | Return attr =>
          if callable attr && truthy (getattr_default attr _ANYWIDGET_COMMAND (VBool false))
          then collect_loop widget names (<[attr_name := attr]> cmds)
          else collect_loop widget names cmds
      | Raise AssertionError => collect_loop widget names cmds
      | Raise e => Raise e
      end
  end.

Definition _collect_commands (widget : WidgetBase) : outcome (gmap string pyobj) :=
  collect_loop widget (w_dir widget) ∅.

(** ** [_register_anywidget_commands] *)

(** The closure [handle_anywidget_command]: it captures [cmds]. *)
Inductive callback : Type :=
| HandleAnywidgetCommand (cmds : gmap string pyobj).

(** What the module does to its environment: it calls a command, and
    it calls the host's [send] and [on_msg]. *)
Inductive event : Type :=
| EvCall (cmd : pyobj) (arg : pyval) (buffers : list bytes)
| EvSend (self : WidgetBase) (content : pyval) (buffers : list bytes)
| EvOnMsg (widget : WidgetBase) (cb : callback).

(** The host: the widget state and the calls made so far, oldest
    first. *)
Record host : Type := Host {
  world : W;
  calls : list event;
}.

Definition log (e : event) : M host unit :=
  modify (λ h, {| world := world h; calls := calls h ++ [e] |}).

(** [cmds[key]] on the dict of commands, whose keys are strings. *)
Definition cmds_getitem (cmds : gmap string pyobj) (key : pyval) : outcome pyobj :=
  if hashable key then
    match key with
    | VStr name =>
        match cmds !! name with
        | Some cmd => Return cmd
        | None => Raise (KeyError key)
        end
    | _ => Raise (KeyError key)
    end
  else Raise (TypeError "unhashable type").

(** [cmd(arg, buffers)]: the call is recorded, then the command runs
    on the widget state. *)
Definition call (cmd : pyobj) (arg : pyval) (buffers : list bytes)
    : M host (pyval * list bytes) :=
  match obj_call cmd with
  | None => raise (TypeError "object is not callable")
  | Some f =>
      log (EvCall cmd arg buffers);;
      MkM (λ h, let '(r, w) := run (f arg buffers) (world h) in
                (r, {| world := w; calls := calls h |}))
  end.

(** [self.send(content, buffers)] *)
Definition send (self : WidgetBase) (content : pyval) (buffers : list bytes)
    : M host unit :=
  log (EvSend self content buffers).

(** [widget.on_msg(callback)] *)
Definition on_msg (widget : WidgetBase) (cb : callback) : M host unit :=
  log (EvOnMsg widget cb).

Definition handle_anywidget_command (cmds : gmap string pyobj)
    (self : WidgetBase) (msg : pyval) (buffers : list bytes) : M host pyval :=
  match msg with
  | VDict d =>
      if str_ne (dict_get d "kind") "anywidget-command" then mret VNone
      else
        name ← getitem d "name";
        cmd ← lift (cmds_getitem cmds name);
        arg ← getitem d "msg";
        '(response, buffers) ← call cmd arg buffers;
        id ← getitem d "id";
        send self
          (VDict {[ "id" := id;
                    "kind" := VStr "anywidget-command-response";
                    "response" := response ]})
          buffers;;
        mret VNone
  | _ => mret VNone
  end.

(** Calling a registered callback. *)
Definition run_callback (cb : callback) : WidgetBase → pyval → list bytes → M host pyval :=
  match cb with
  | HandleAnywidgetCommand cmds => handle_anywidget_command cmds
  end.

Definition _register_anywidget_commands (widget : WidgetBase) : M host pyval :=
  cmds ← lift (_collect_commands widget);
  if Nat.eqb (size cmds) 0 then mret VNone
  else
    on_msg widget (HandleAnywidgetCommand cmds);;
    mret VNone.

End Model.

Arguments PyObj {W} _ _.
Arguments obj_attrs {W} _.
Arguments obj_call {W} _.
Arguments callable {W} _.
Arguments getattr_default {W} _ _ _.
Arguments set_attribute {W} _ _ _.
Arguments setattr {W} _ _ _.
Arguments Class {W} _.
Arguments Decorator {W} _.
Arguments widget {W} _ _ _ _ _.
Arguments dataclass {W} _ _ _ _ _ _ _.
Arguments command {W} _.
Arguments Build_WidgetBase {W} _ _.
Arguments w_dir {W} _.
Arguments w_getattr {W} _ _.
Arguments collect_loop {W} _ _ _.
Arguments _collect_commands {W} _.
Arguments HandleAnywidgetCommand {W} _.
Arguments EvCall {W} _ _ _.
Arguments EvSend {W} _ _ _.
Arguments EvOnMsg {W} _ _.
Arguments Host {W} _ _.
Arguments world {W} _.
Arguments calls {W} _.
Arguments log {W} _.
Arguments cmds_getitem {W} _ _.
Arguments call {W} _ _ _.
Arguments send {W} _ _ _.
Arguments on_msg {W} _ _.
Arguments handle_anywidget_command {W} _ _ _ _.
Arguments run_callback {W} _ _ _ _.
Arguments _register_anywidget_commands {W} _.

(** ** A counter widget, to run the definitions on *)

Module Counter.

(** The widget state is the count. *)

(** [greet(msg, buffers)] answers with a greeting and hands the buffers
    back; it leaves the count alone. *)
Definition greet : _AnyWidgetCommandBound nat :=
  λ msg buffers, mret (VList [VStr "hello"; msg], buffers).

(** [increment(msg, buffers)] adds one to the count and answers with
    the new count. *)
Definition increment : _AnyWidgetCommandBound nat :=
  λ msg buffers, MkM (λ n, (Return (VInt (Z.of_nat (S n)), []), S n)).

(** [fail(msg, buffers)] raises [ValueError]. *)
Definition failing : _AnyWidgetCommandBound nat :=
  λ msg buffers, raise (Exception "ValueError").

(** A method decorated with [command], as [getattr] hands it out. *)
Definition tagged (f : _AnyWidgetCommandBound nat) : pyobj nat :=
  PyObj {[ "_anywidget_command" := VBool true ]} (Some f).

(** A plain method. *)
Definition plain (f : _AnyWidgetCommandBound nat) : pyobj nat :=
  PyObj ∅ (Some f).

(** A data attribute. *)
Definition data : pyobj nat := PyObj ∅ None.

(** [keys] raises [AssertionError] on access, as the static properties
    of [ipywidgets] do; [close] is a method without the tag; [value] is
    data. *)
Definition counter : WidgetBase nat := {|
  w_dir := ["close"; "fail"; "greet"; "increment"; "keys"; "value"];
  w_getattr := λ name,
    if String.eqb name "close" then Return (plain greet)
    else if String.eqb name "fail" then Return (tagged failing)
    else if String.eqb name "greet" then Return (tagged greet)
    else if String.eqb name "increment" then Return (tagged increment)
    else if String.eqb name "keys" then Raise AssertionError
    else if String.eqb name "value" then Return data
    else Raise (Exception "AttributeError");
|}.

(** The commands of [counter]. *)
Definition counter_cmds : gmap string (pyobj nat) :=
  {[ "fail" := tagged failing; "greet" := tagged greet; "increment" := tagged increment ]}.

(** A widget without commands. *)
Definition label : WidgetBase nat := {|
  w_dir := ["close"; "keys"; "value"];
  w_getattr := w_getattr counter;
|}.

(** A widget with a property, [layout], whose getter raises
    [NotImplementedError]. *)
Definition broken : WidgetBase nat := {|
  w_dir := ["greet"; "layout"; "value"];
  w_getattr := λ name,
    if String.eqb name "layout" then Raise (Exception "NotImplementedError")
    else w_getattr counter name;
|}.

(** The host before any call, with the count at [0]. *)
Definition fresh : host nat := Host 0 [].

(** A heap with a class at location [1] and a function at location [2]. *)
Definition heap0 : gmap loc (pyobj nat) :=
  {[ 1%positive := PyObj {[ "__name__" := VStr "Counter" ]} (Some greet);
     2%positive := PyObj {[ "__name__" := VStr "greet" ]} (Some greet) ]}.

(** Stand-ins for the library calls: each marks the class it is given
    and returns it. *)
Definition descriptor (kwargs : gmap string pyval) : pyval :=
  VInstance "MimeBundleDescriptor" kwargs.

Definition make_dataclass (cls : loc) (kwargs : gmap string pyval)
    : M (gmap loc (pyobj nat)) loc :=
  setattr cls "__dataclass_params__" (VDict kwargs);;
  mret cls.

Definition make_evented (cls : loc) : M (gmap loc (pyobj nat)) loc :=
  setattr cls "events" (VInstance "SignalGroupDescriptor" ∅);;
  mret cls.

(** Messages. [call_greet] is a full command message; the others lack
    a key, name something that is not a command, or are of another
    kind. *)
Definition call_greet : gmap string pyval :=
  {[ "id" := VStr "a1"; "kind" := VStr "anywidget-command";
     "msg" := VInt 1; "name" := VStr "greet" ]}.

Definition no_payload : gmap string pyval :=
  {[ "kind" := VStr "anywidget-command"; "name" := VStr "greet" ]}.

Definition no_id : gmap string pyval :=
  {[ "kind" := VStr "anywidget-command"; "msg" := VInt 1;
     "name" := VStr "greet" ]}.

Definition call_increment : gmap string pyval :=
  {[ "id" := VStr "b1"; "kind" := VStr "anywidget-command";
     "msg" := VNone; "name" := VStr "increment" ]}.

Definition call_reset : gmap string pyval :=
  {[ "id" := VStr "a2"; "kind" := VStr "anywidget-command";
     "msg" := VNone; "name" := VStr "reset" ]}.

Definition list_name : gmap string pyval :=
  {[ "id" := VStr "a3"; "kind" := VStr "anywidget-command";
     "msg" := VNone; "name" := VList [VStr "greet"] ]}.

Definition custom : gmap string pyval :=
  {[ "kind" := VStr "custom"; "name" := VStr "greet" ]}.

(** A host on which [increment] has run twice already. *)
Definition used : host nat :=
  Host 2 [EvCall (tagged increment) VNone []; EvCall (tagged increment) VNone []].

(** [increment] called without an [id] to answer to. *)
Definition increment_no_id : gmap string pyval :=
  {[ "kind" := VStr "anywidget-command"; "msg" := VNone;
     "name" := VStr "increment" ]}.

(** [counter] with its names listed in another order, one of them
    twice. *)
Definition shuffled : WidgetBase nat := {|
  w_dir := ["value"; "increment"; "keys"; "greet"; "fail"; "close"; "greet"];
  w_getattr := w_getattr counter;
|}.

(** A widget with one attribute, [run], bound to a given object. *)
Definition exposing (o : pyobj nat) : WidgetBase nat := {|
  w_dir := ["run"];
  w_getattr := λ name,
    if String.eqb name "run" then Return o
    else Raise (Exception "AttributeError");
|}.

End Counter.

(** * Properties *)

(** ** The monad *)

Lemma run_ret {S A} (a : A) (s : S) : run (mret a) s = (Return a, s).
Proof. reflexivity. Qed.

Lemma run_bind {S A B} (m : M S A) (k : A → M S B) (s : S) :
  run (m ≫= k) s =
    match run m s with
    | (Return a, s') => run (k a) s'
    | (Raise e, s') => (Raise e, s')
    end.
Proof. reflexivity. Qed.

Lemma run_raise {S A} (e : exn) (s : S) : run (raise e : M S A) s = (Raise e, s).
Proof. reflexivity. Qed.

Lemma run_lift {S A} (o : outcome A) (s : S) : run (lift o) s = (o, s).
Proof. reflexivity. Qed.

Lemma run_getitem_Some {S} (d : gmap string pyval) key v (s : S) :
  d !! key = Some v → run (getitem d key) s = (Return v, s).
Proof. intros Hk. unfold getitem. by rewrite Hk. Qed.

Lemma run_getitem_None {S} (d : gmap string pyval) key (s : S) :
  d !! key = None → run (getitem d key) s = (Raise (KeyError (VStr key)), s).
Proof. intros Hk. unfold getitem. by rewrite Hk. Qed.

(** ** [setattr] *)

Section Heap.
Context {W : Type}.
Implicit Types (h : gmap loc (pyobj W)) (o : pyobj W).

Lemma run_setattr h (l : loc) name v :
  run (setattr l name v) h = (Return tt, alter (set_attribute name v) l h).
Proof. reflexivity. Qed.

(** [setattr] changes one attribute of one object, and nothing else. *)
Lemma setattr_frame h (l : loc) o name v :
  h !! l = Some o →
  ∃ o', alter (set_attribute name v) l h !! l = Some o' ∧
    obj_attrs o' !! name = Some v ∧
    (∀ name', name' ≠ name → obj_attrs o' !! name' = obj_attrs o !! name') ∧
    obj_call o' = obj_call o ∧
    (∀ l', l' ≠ l → alter (set_attribute name v) l h !! l' = h !! l').
Proof.
  intros Hl. exists (set_attribute name v o).
  split; [by rewrite lookup_alter_eq, Hl |].
  split; [apply lookup_insert_eq |].
  split; [intros name' Hne; by apply lookup_insert_ne |].
  split; [done |].
  intros l' Hne. by apply lookup_alter_ne.
Qed.

End Heap.

(** ** [widget], [dataclass] and [command] *)

Section DecoratorProperties.
Context {W : Type}.
Variable MimeBundleDescriptor : gmap string pyval → pyval.
Variable dataclasses_dataclass : loc → gmap string pyval → M (gmap loc (pyobj W)) loc.
Variable psygnal_evented : loc → M (gmap loc (pyobj W)) loc.
Implicit Types (h : gmap loc (pyobj W)) (o : pyobj W) (C f : loc).
Implicit Types (esm css : pyval) (kwargs : gmap string pyval).

(** The keyword arguments [widget] hands to the descriptor. *)
Lemma run_widget esm css kwargs C h :
  run (widget MimeBundleDescriptor esm css kwargs C) h =
    (Return C,
     alter (set_attribute "_repr_mimebundle_"
              (MimeBundleDescriptor
                 (if is_none css then <["_esm" := esm]> kwargs
                  else <["_css" := css]> (<["_esm" := esm]> kwargs)))) C h).
Proof. unfold widget. by destruct (is_none css). Qed.


(** C8, as amended. [esm] is a required argument of [widget]; [css] may
    be [None].  The descriptor stored on the class is built from
    keyword arguments in which [_esm] is [esm]; when [css] is [None]
    they hold [_css] exactly when the extra keyword arguments do, with
    the same value, so [widget] adds none; when [css] is not [None]
    they hold [_css] equal to [css]. *)
Theorem widget_css_keyword esm css kwargs h C o :
  h !! C = Some o →
  ∃ h' o' given,
    run (widget MimeBundleDescriptor esm css kwargs C) h = (Return C, h') ∧
    h' !! C = Some o' ∧
    obj_attrs o' !! "_repr_mimebundle_" = Some (MimeBundleDescriptor given) ∧
    given !! "_esm" = Some esm ∧
    (css = VNone → given !! "_css" = kwargs !! "_css") ∧
    (css ≠ VNone → given !! "_css" = Some css).
Proof.
  intros HC.
  eexists _, _, _. split; [apply run_widget |].
  split; [by rewrite lookup_alter_eq, HC |].
  split; [apply lookup_insert_eq |].
  destruct css; simpl; simplify_map_eq; done.
Qed.

(** C3. [dataclass] applies [dataclasses.dataclass] with the extra
    keyword arguments, then [psygnal.evented] to the class that
    returned, then [widget] with [esm] and [css] to the class that
    returned; a step that raises ends the chain.  Called with a class
    it returns the result of the chain; called without one it returns
    the decorator that runs the chain. *)
Theorem dataclass_three_steps esm css kwargs h C :
  let chain := λ C h,
    match run (dataclasses_dataclass C kwargs) h with
    | (Raise e, h1) => (Raise e, h1)
    | (Return C1, h1) =>
        match run (psygnal_evented C1) h1 with
        | (Raise e, h2) => (Raise e, h2)
        | (Return C2, h2) => run (widget MimeBundleDescriptor esm css ∅ C2) h2
        end
    end in
  run (dataclass MimeBundleDescriptor dataclasses_dataclass psygnal_evented
         (Some C) esm css kwargs) h =
    match chain C h with
    | (Return C3, h3) => (Return (Class C3), h3)
    | (Raise e, h3) => (Raise e, h3)
    end
  ∧ ∃ d,
      run (dataclass MimeBundleDescriptor dataclasses_dataclass psygnal_evented
             None esm css kwargs) h = (Return (Decorator d), h) ∧
      ∀ C' h', run (d C') h' = chain C' h'.
Proof.
  assert (Hchain : ∀ C' h',
    run (C1 ← dataclasses_dataclass C' kwargs;
         C2 ← psygnal_evented C1;
         C3 ← widget MimeBundleDescriptor esm css ∅ C2;
         mret C3) h' =
    match run (dataclasses_dataclass C' kwargs) h' with
    | (Raise e, h1) => (Raise e, h1)
    | (Return C1, h1) =>
        match run (psygnal_evented C1) h1 with
        | (Raise e, h2) => (Raise e, h2)
        | (Return C2, h2) => run (widget MimeBundleDescriptor esm css ∅ C2) h2
        end
    end).
  { intros C' h'. rewrite run_bind.
    destruct (run (dataclasses_dataclass C' kwargs) h') as [[C1 | e] h1]; [| done].
    rewrite run_bind.
    destruct (run (psygnal_evented C1) h1) as [[C2 | e] h2]; [| done].
    rewrite run_bind, run_widget. reflexivity. }
  intros chain. split.
  - unfold dataclass. rewrite run_bind, Hchain. fold (chain C h).
    by destruct (chain C h) as [[C3 | e] h3].
  - eexists. split; [reflexivity |]. intros C' h'. apply Hchain.
Qed.


End DecoratorProperties.

(** ** [_collect_commands] *)

Section CollectProperties.
Context {W : Type}.
Implicit Types (w : WidgetBase W) (cmds : gmap string (pyobj W)) (a : pyobj W).

(** One turn of the loop, by what the attribute access does. *)
Lemma collect_loop_cons w name names cmds :
  collect_loop w (name :: names) cmds =
    match w_getattr w name with
    | Return a =>
        collect_loop w names
          (if callable a && truthy (getattr_default a "_anywidget_command" (VBool false))
           then <[name := a]> cmds else cmds)
    | Raise AssertionError => collect_loop w names cmds
    | Raise e => Raise e
    end.
Proof.
  simpl. destruct (w_getattr w name) as [a | e]; [| done].
  unfold _ANYWIDGET_COMMAND.
  by destruct (callable a && truthy _).
Qed.

(** When no access raises anything but [AssertionError], the loop ends
    with a dict that holds, for each visited name that is a command,
    that command, and otherwise what the dict held before. *)
Lemma collect_loop_lookup w names :
  (∀ name e, name ∈ names → w_getattr w name = Raise e → e = AssertionError) →
  ∀ cmds, ∃ cmds',
    collect_loop w names cmds = Return cmds' ∧
    ∀ name, cmds' !! name =
      match w_getattr w name with
      | Return a =>
          if bool_decide (name ∈ names)
             && callable a
             && truthy (getattr_default a "_anywidget_command" (VBool false))
          then Some a else cmds !! name
      | Raise _ => cmds !! name
      end.
Proof.
  induction names as [| name0 names IH]; intros Hraise cmds.
  - exists cmds. split; [done |]. intros name.
    destruct (w_getattr w name); [| done].
    rewrite bool_decide_eq_false_2; [done | apply not_elem_of_nil].
  - assert (Hrest : ∀ name e, name ∈ names →
              w_getattr w name = Raise e → e = AssertionError).
    { intros name e Hin. apply Hraise. by apply list_elem_of_further. }
    rewrite collect_loop_cons.
    destruct (w_getattr w name0) as [a0 | e0] eqn:Hget0.
    + destruct (IH Hrest
        (if callable a0 && truthy (getattr_default a0 "_anywidget_command" (VBool false))
         then <[name0 := a0]> cmds else cmds)) as (cmds' & Hrun & Hlook).
      exists cmds'. split; [done |]. intros name. rewrite Hlook.
      destruct (decide (name = name0)) as [-> | Hne].
      * rewrite Hget0.
        rewrite (bool_decide_eq_true_2 (name0 ∈ name0 :: names));
          [| apply list_elem_of_here].
        destruct (bool_decide (name0 ∈ names)); simpl;
          destruct (callable a0 && truthy _); simpl; try done.
        by rewrite lookup_insert_eq.
      * assert (Hmem : bool_decide (name ∈ name0 :: names) = bool_decide (name ∈ names)).
        { apply bool_decide_ext. rewrite elem_of_cons. tauto. }
        rewrite Hmem.
        assert (Hkeep : (if callable a0 && truthy (getattr_default a0 "_anywidget_command" (VBool false))
                  then <[name0 := a0]> cmds else cmds) !! name = cmds !! name).
        { destruct (callable a0 && truthy _); [| done]. by apply lookup_insert_ne. }
        by rewrite Hkeep.
    + assert (e0 = AssertionError) as ->.
      { apply (Hraise name0); [apply list_elem_of_here | done]. }
      destruct (IH Hrest cmds) as (cmds' & Hrun & Hlook).
      exists cmds'. split; [done |]. intros name. rewrite Hlook.
      destruct (decide (name = name0)) as [-> | Hne].
      * by rewrite Hget0.
      * assert (Hmem : bool_decide (name ∈ name0 :: names) = bool_decide (name ∈ names)).
        { apply bool_decide_ext. rewrite elem_of_cons. tauto. }
        by rewrite Hmem.
Qed.

(** What [_collect_commands] collected is a command of the widget. *)
Lemma collected_is_command w cmds name a :
  (∀ name e, name ∈ w_dir w → w_getattr w name = Raise e → e = AssertionError) →
  _collect_commands w = Return cmds →
  cmds !! name = Some a ↔
    name ∈ w_dir w ∧ w_getattr w name = Return a ∧
    callable a = true ∧
    truthy (getattr_default a "_anywidget_command" (VBool false)) = true.
Proof.
  intros Hraise Hrun.
  destruct (collect_loop_lookup w (w_dir w) Hraise ∅) as (cmds' & Hrun' & Hlook).
  unfold _collect_commands in Hrun. rewrite Hrun in Hrun'.
  injection Hrun' as <-. rewrite Hlook, lookup_empty.
  destruct (w_getattr w name) as [a' | e];
    [| split; [discriminate | intros (_ & ? & _); discriminate]].
  split.
  - intros Heq.
    destruct (bool_decide (name ∈ w_dir w)) eqn:Hin,
      (callable a') eqn:Hc, (truthy _) eqn:Ht; simpl in Heq; try discriminate.
    injection Heq as <-. apply bool_decide_eq_true_1 in Hin. done.
  - intros (Hin & [= <-] & Hc & Ht).
    by rewrite (bool_decide_eq_true_2 _ Hin), Hc, Ht.
Qed.

(** C4, as amended. For a widget on which no attribute access raises
    anything but [AssertionError], [_collect_commands] returns the dict
    that binds a name [n] to [a] exactly when [n] is listed by [dir],
    [getattr(w, n)] returns [a], [a] is callable and its
    [_anywidget_command] attribute is truthy. *)
Theorem collect_commands_exact w :
  (∀ name e, name ∈ w_dir w → w_getattr w name = Raise e → e = AssertionError) →
  ∃ cmds,
    _collect_commands w = Return cmds ∧
    ∀ name a,
      cmds !! name = Some a ↔
        name ∈ w_dir w ∧ w_getattr w name = Return a ∧
        callable a = true ∧
        truthy (getattr_default a "_anywidget_command" (VBool false)) = true.
Proof.
  intros Hraise.
  destruct (collect_loop_lookup w (w_dir w) Hraise ∅) as (cmds & Hrun & _).
  exists cmds. split; [exact Hrun |].
  intros name a. by apply collected_is_command.
Qed.

End CollectProperties.

(** ** The message handler *)

Section DispatchProperties.
Context {W : Type}.
Implicit Types (w self : WidgetBase W) (cmds : gmap string (pyobj W)).
Implicit Types (cmd : pyobj W) (h : host W) (d : gmap string pyval).

Lemma run_log h (e : event W) :
  run (log e) h = (Return tt, Host (world h) (calls h ++ [e])).
Proof. reflexivity. Qed.

(** A call records itself, then runs the command on the widget state. *)
Lemma run_call cmd f arg buffers h :
  obj_call cmd = Some f →
  run (call cmd arg buffers) h =
    (fst (run (f arg buffers) (world h)),
     Host (snd (run (f arg buffers) (world h)))
          (calls h ++ [EvCall cmd arg buffers])).
Proof.
  intros Hf. unfold call. rewrite Hf, run_bind, run_log. simpl.
  by destruct (run (f arg buffers) (world h)).
Qed.

Lemma cmds_getitem_str cmds N cmd :
  cmds !! N = Some cmd → cmds_getitem cmds (VStr N) = Return cmd.
Proof. intros HN. unfold cmds_getitem. simpl. by rewrite HN. Qed.

(** The handler on a command message, step by step. *)
Lemma run_handle_command cmds self d buffers h :
  d !! "kind" = Some (VStr "anywidget-command") →
  run (handle_anywidget_command cmds self (VDict d) buffers) h =
    run (name ← getitem d "name";
         cmd ← lift (cmds_getitem cmds name);
         arg ← getitem d "msg";
         '(response, buffers) ← call cmd arg buffers;
         id ← getitem d "id";
         send self
           (VDict {[ "id" := id;
                     "kind" := VStr "anywidget-command-response";
                     "response" := response ]})
           buffers;;
         mret VNone) h.
Proof. intros Hkind. unfold handle_anywidget_command, dict_get. by rewrite Hkind. Qed.

(** C1, as amended. Let the command map collected from a widget bind
    [N] to [cmd], and let the message be a dict with [kind] equal to
    ["anywidget-command"], [name] equal to [N], and with keys [msg] and
    [id].  If [cmd], called with [msg["msg"]] and the incoming buffers,
    returns a response [r] and buffers [b], then the handler makes
    exactly two calls, in this order: [cmd] with [msg["msg"]] and the
    incoming buffers, and [self.send] with the dict of [msg["id"]],
    ["anywidget-command-response"] and [r], and with [b]; it returns
    [None]. *)
Theorem dispatch_calls_command_then_sends
    w cmds N cmd self d buffers arg id h :
  _collect_commands w = Return cmds →
  cmds !! N = Some cmd →
  d !! "kind" = Some (VStr "anywidget-command") →
  d !! "name" = Some (VStr N) →
  d !! "msg" = Some arg →
  d !! "id" = Some id →
  ∃ f, obj_call cmd = Some f ∧
    ∀ r b world',
      run (f arg buffers) (world h) = (Return (r, b), world') →
      run (handle_anywidget_command cmds self (VDict d) buffers) h =
        (Return VNone,
         Host world'
           (calls h ++
              [EvCall cmd arg buffers;
               EvSend self
                 (VDict {[ "id" := id;
                           "kind" := VStr "anywidget-command-response";
                           "response" := r ]})
                 b])).
Proof.
  intros Hcollect HN Hkind Hname Hmsg Hid.
  assert (Hcallable : callable cmd = true).
  { unfold _collect_commands in Hcollect.
    revert Hcollect HN. generalize (w_dir w).
    assert (Hinv : ∀ names acc,
      (∀ n a, acc !! n = Some a → callable a = true) →
      collect_loop w names acc = Return cmds →
      cmds !! N = Some cmd → callable cmd = true).
    { induction names as [| name names IH]; intros acc Hacc Hrun Hlook.
      - injection Hrun as <-. by eapply Hacc.
      - rewrite collect_loop_cons in Hrun.
        destruct (w_getattr w name) as [a | e].
        + eapply IH; [| exact Hrun | exact Hlook].
          destruct (callable a) eqn:Hc; simpl; [| exact Hacc].
          destruct (truthy _); [| exact Hacc].
          intros n a'. destruct (decide (name = n)) as [-> | Hne].
          * rewrite lookup_insert_eq. by intros [= <-].
          * rewrite lookup_insert_ne by done. apply Hacc.
        + destruct e; try discriminate. by eapply IH. }
    intros names. apply Hinv. intros n a. by rewrite lookup_empty. }
  unfold callable in Hcallable.
  destruct (obj_call cmd) as [f |] eqn:Hf; [| discriminate].
  exists f. split; [done |]. intros r b world' Hrun.
  rewrite run_handle_command by done.
  rewrite run_bind, (run_getitem_Some d "name" (VStr N)) by done.
  rewrite run_bind, run_lift, (cmds_getitem_str cmds N cmd) by done.
  rewrite run_bind, (run_getitem_Some d "msg" arg) by done.
  rewrite run_bind, (run_call cmd f) by done. rewrite Hrun.
  cbn [fst snd].
  rewrite run_bind, (run_getitem_Some d "id" id) by done.
  rewrite run_bind. unfold send. rewrite run_log, run_ret.
  cbn [world calls]. by rewrite <- app_assoc.
Qed.

(** C5, as amended. On a message that is a dict with [kind] equal to
    ["anywidget-command"] whose [name] is absent or is not a key of the
    command map, the handler raises and leaves the host as it was: no
    command is called and nothing is sent.  It raises [KeyError], but
    [TypeError] when the [name] value is a list or a dict, which cannot
    be hashed. *)
Theorem dispatch_unknown_name cmds self d buffers h :
  d !! "kind" = Some (VStr "anywidget-command") →
  (∀ N, d !! "name" = Some (VStr N) → cmds !! N = None) →
  run (handle_anywidget_command cmds self (VDict d) buffers) h =
    (Raise match d !! "name" with
           | None => KeyError (VStr "name")
           | Some v => if hashable v then KeyError v
                       else TypeError "unhashable type"
           end, h).
Proof.
  intros Hkind Hname. rewrite run_handle_command by done.
  rewrite run_bind. unfold getitem.
  destruct (d !! "name") as [v |] eqn:Hv; [| done].
  rewrite run_ret, run_bind. unfold cmds_getitem, lift. simpl.
  destruct v; simpl; try done.
  by rewrite (Hname s eq_refl).
Qed.

(** C6. On a message that is not a dict, or is a dict whose [kind] is
    not ["anywidget-command"], the handler returns [None] and leaves
    the host as it was: the widget state is unchanged, no command is
    called and nothing is sent. *)
Theorem dispatch_ignores_other_messages cmds self msg buffers h :
  (∀ d, msg = VDict d → d !! "kind" ≠ Some (VStr "anywidget-command")) →
  run (handle_anywidget_command cmds self msg buffers) h = (Return VNone, h).
Proof.
  intros Hkind. destruct msg as [| | | | | d |]; try done.
  specialize (Hkind d eq_refl). unfold handle_anywidget_command, dict_get.
  destruct (d !! "kind") as [v |]; [| done].
  destruct v as [| | | s | | |]; try done. simpl.
  destruct (String.eqb s "anywidget-command") eqn:Heq; [| done].
  apply String.eqb_eq in Heq as ->. done.
Qed.

(** C9, as amended. When [_collect_commands(w)] returns,
    [_register_anywidget_commands(w)] returns [None]; it calls
    [w.on_msg] once, with the handler over the collected commands, when
    the collected dict is not empty, and makes no call and leaves the
    host as it was when the dict is empty. *)
Theorem register_calls_on_msg_once w cmds h :
  _collect_commands w = Return cmds →
  (cmds = ∅ →
     run (_register_anywidget_commands w) h = (Return VNone, h)) ∧
  (cmds ≠ ∅ →
     run (_register_anywidget_commands w) h =
       (Return VNone,
        Host (world h)
          (calls h ++ [EvOnMsg w (HandleAnywidgetCommand cmds)]))).
Proof.
  intros Hcollect. unfold _register_anywidget_commands.
  rewrite run_bind, Hcollect. simpl. split.
  - intros ->. by rewrite map_size_empty.
  - intros Hne. destruct (size cmds) eqn:Hsize; [| done].
    by apply map_size_empty_inv in Hsize.
Qed.

Lemma cmds_getitem_Return cmds key cmd :
  cmds_getitem cmds key = Return cmd →
  ∃ N, key = VStr N ∧ cmds !! N = Some cmd.
Proof.
  unfold cmds_getitem. destruct key as [| | | N | | |]; simpl; try discriminate.
  destruct (cmds !! N) as [c |] eqn:HN; [| discriminate].
  intros [= <-]. by exists N.
Qed.

(** C10. The handler keeps no state of its own.  When the result of
    every command in the map depends on its arguments only, handling a
    message from any two hosts, whatever was handled before on each,
    gives the same outcome (the same returned value or the same
    exception) and makes the same calls: the same call of the command
    and the same single [send], or none. *)
Theorem dispatch_is_stateless cmds self msg buffers h1 h2 :
  (∀ N cmd f arg bufs world1 world2,
     cmds !! N = Some cmd → obj_call cmd = Some f →
     fst (run (f arg bufs) world1) = fst (run (f arg bufs) world2)) →
  ∃ evs,
    fst (run (handle_anywidget_command cmds self msg buffers) h1) =
      fst (run (handle_anywidget_command cmds self msg buffers) h2) ∧
    calls (snd (run (handle_anywidget_command cmds self msg buffers) h1)) =
      calls h1 ++ evs ∧
    calls (snd (run (handle_anywidget_command cmds self msg buffers) h2)) =
      calls h2 ++ evs.
Proof.
  intros Hdet.
  assert (Hnil : ∀ (o : outcome pyval), ∃ evs : list (event W),
    fst (o, h1) = fst (o, h2) ∧ calls (snd (o, h1)) = calls h1 ++ evs ∧
    calls (snd (o, h2)) = calls h2 ++ evs).
  { intros o. exists []. by rewrite !app_nil_r. }
  unfold handle_anywidget_command.
  destruct msg as [| | | | | d |]; try apply Hnil.
  destruct (str_ne _ _); [apply Hnil |].
  rewrite !run_bind.
  destruct (d !! "name") as [v |] eqn:Hname.
  2: { rewrite !(run_getitem_None d "name") by done. apply Hnil. }
  rewrite !(run_getitem_Some d "name" v) by done.
  rewrite !run_bind, !run_lift.
  destruct (cmds_getitem cmds v) as [cmd | e] eqn:Hcmd; [| apply Hnil].
  apply cmds_getitem_Return in Hcmd as (N & -> & HN).
  rewrite !run_bind.
  destruct (d !! "msg") as [arg |] eqn:Hmsg.
  2: { rewrite !(run_getitem_None d "msg") by done. apply Hnil. }
  rewrite !(run_getitem_Some d "msg" arg) by done.
  rewrite !run_bind.
  destruct (obj_call cmd) as [f |] eqn:Hf.
  2: { unfold call. rewrite Hf, !run_raise. apply Hnil. }
  rewrite !(run_call cmd f) by done.
  specialize (Hdet N cmd f arg buffers (world h1) (world h2) HN Hf).
  destruct (run (f arg buffers) (world h1)) as [o1 world1].
  destruct (run (f arg buffers) (world h2)) as [o2 world2].
  simpl in Hdet. subst o2. cbn [fst snd].
  destruct o1 as [[r b] | e].
  2: { exists [EvCall cmd arg buffers]. done. }
  rewrite !run_bind.
  destruct (d !! "id") as [id |] eqn:Hid.
  2: { rewrite !(run_getitem_None d "id") by done.
       exists [EvCall cmd arg buffers]. done. }
  rewrite !(run_getitem_Some d "id" id) by done.
  rewrite !run_bind. unfold send. rewrite !run_log, !run_ret.
  cbn [fst snd world calls].
  eexists [EvCall cmd arg buffers; EvSend self _ b].
  by rewrite <- !app_assoc.
Qed.

End DispatchProperties.

(** ** Exceptions that leave the module *)

Section Propagation.
Context {W : Type}.
Implicit Types (w self : WidgetBase W) (cmds : gmap string (pyobj W)).
Implicit Types (cmd : pyobj W) (h : host W) (d : gmap string pyval).

(** X1. The first attribute access, in the order of [dir], that raises
    something other than [AssertionError] ends [_collect_commands] with
    that exception. *)
Theorem collect_commands_raises w before name after e :
  w_dir w = before ++ name :: after →
  (∀ n e', n ∈ before → w_getattr w n = Raise e' → e' = AssertionError) →
  w_getattr w name = Raise e →
  e ≠ AssertionError →
  _collect_commands w = Raise e.
Proof.
  intros Hdir Hbefore Hname He. unfold _collect_commands. rewrite Hdir.
  clear Hdir. generalize (∅ : gmap string (pyobj W)).
  induction before as [| n before IH]; intros acc.
  - simpl. rewrite Hname. by destruct e.
  - assert (Hrest : ∀ n' e', n' ∈ before →
              w_getattr w n' = Raise e' → e' = AssertionError).
    { intros n' e' Hin. apply Hbefore. by apply list_elem_of_further. }
    change ((n :: before) ++ name :: after) with (n :: (before ++ name :: after)).
    rewrite collect_loop_cons.
    destruct (w_getattr w n) as [a | e'] eqn:Hn; [by apply (IH Hrest) |].
    assert (e' = AssertionError) as ->.
    { apply (Hbefore n); [apply list_elem_of_here | done]. }
    by apply (IH Hrest).
Qed.

(** X2. When the command raises, the handler has called it once, sends
    nothing and raises the same exception. *)
Theorem dispatch_command_raises cmds N cmd f self d buffers arg h e world' :
  cmds !! N = Some cmd →
  obj_call cmd = Some f →
  d !! "kind" = Some (VStr "anywidget-command") →
  d !! "name" = Some (VStr N) →
  d !! "msg" = Some arg →
  run (f arg buffers) (world h) = (Raise e, world') →
  run (handle_anywidget_command cmds self (VDict d) buffers) h =
    (Raise e, Host world' (calls h ++ [EvCall cmd arg buffers])).
Proof.
  intros HN Hf Hkind Hname Hmsg Hrun.
  rewrite run_handle_command by done.
  rewrite run_bind, (run_getitem_Some d "name" (VStr N)) by done.
  rewrite run_bind, run_lift, (cmds_getitem_str cmds N cmd) by done.
  rewrite run_bind, (run_getitem_Some d "msg" arg) by done.
  rewrite run_bind, (run_call cmd f) by done.
  by rewrite Hrun.
Qed.

End Propagation.

(** ** How the decorators compose *)

Section DecoratorComposition.
Context {W : Type}.
Variable MimeBundleDescriptor : gmap string pyval → pyval.
Variable dataclasses_dataclass : loc → gmap string pyval → M (gmap loc (pyobj W)) loc.
Variable psygnal_evented : loc → M (gmap loc (pyobj W)) loc.
Implicit Types (h : gmap loc (pyobj W)) (o : pyobj W) (C f l : loc).
Implicit Types (esm css v : pyval) (kwargs : gmap string pyval).

(** X3. When [dataclasses.dataclass] and [psygnal.evented] return,
    [dataclass] returns the class that [psygnal.evented] returned, with
    a descriptor built from [_esm], and [_css] when [css] is not [None],
    and nothing else: the keyword arguments of [dataclass] do not reach
    the descriptor.  The other attributes of that class and the other
    objects are as [psygnal.evented] left them. *)
Theorem dataclass_stores_assets_only esm css kwargs h C C1 h1 C2 h2 o :
  run (dataclasses_dataclass C kwargs) h = (Return C1, h1) →
  run (psygnal_evented C1) h1 = (Return C2, h2) →
  h2 !! C2 = Some o →
  ∃ h3 o',
    run (dataclass MimeBundleDescriptor dataclasses_dataclass psygnal_evented
           (Some C) esm css kwargs) h = (Return (Class C2), h3) ∧
    h3 !! C2 = Some o' ∧
    obj_attrs o' !! "_repr_mimebundle_" =
      Some (MimeBundleDescriptor
              (if is_none css then {[ "_esm" := esm ]}
               else {[ "_css" := css; "_esm" := esm ]})) ∧
    (∀ name, name ≠ "_repr_mimebundle_" →
       obj_attrs o' !! name = obj_attrs o !! name) ∧
    obj_call o' = obj_call o ∧
    (∀ l, l ≠ C2 → h3 !! l = h2 !! l).
Proof.
  intros Hdc Hev HC2.
  set (given := if is_none css then ({[ "_esm" := esm ]} : gmap string pyval)
                else {[ "_css" := css; "_esm" := esm ]}).
  destruct (setattr_frame h2 C2 o "_repr_mimebundle_"
              (MimeBundleDescriptor given) HC2)
    as (o' & Ho' & Hset & Hother & Hcall & Hframe).
  eexists _, o'. split; [| eauto 10].
  unfold dataclass. rewrite !run_bind, Hdc, run_bind, Hev, run_bind, run_widget.
  rewrite !run_ret. rewrite insert_empty. reflexivity.
Qed.

End DecoratorComposition.

(** ** Edge behaviour of collection and dispatch *)

Section EdgeBehaviour.
Context {W : Type}.
Implicit Types (w self : WidgetBase W) (cmds : gmap string (pyobj W)).
Implicit Types (cmd o : pyobj W) (h : host W) (d : gmap string pyval).

(** The loop reads the widget through [getattr] only. *)
Lemma collect_loop_getattr w1 w2 names cmds :
  (∀ name, w_getattr w1 name = w_getattr w2 name) →
  collect_loop w1 names cmds = collect_loop w2 names cmds.
Proof.
  intros Hget. revert cmds.
  induction names as [| name names IH]; intros cmds; [done |].
  rewrite !collect_loop_cons, <- Hget.
  destruct (w_getattr w1 name) as [a | e]; [apply IH |].
  destruct e; first [done | apply IH].
Qed.

(** X4. Names whose access raises [AssertionError] do not count:
    [_collect_commands] gives the same result, returned or raised, as
    on the widget whose [dir] lists the remaining names. *)
Theorem collect_commands_skips_assertion_errors w :
  _collect_commands w =
    _collect_commands
      {| w_dir := List.filter
                    (λ name, match w_getattr w name with
                             | Raise AssertionError => false
                             | _ => true
                             end) (w_dir w);
         w_getattr := w_getattr w |}.
Proof.
  unfold _collect_commands. cbn [w_dir].
  set (names' := List.filter _ (w_dir w)).
  rewrite (collect_loop_getattr
             {| w_dir := names'; w_getattr := w_getattr w |} w names' ∅) by done.
  subst names'.
  generalize (∅ : gmap string (pyobj W)).
  induction (w_dir w) as [| name names IH]; intros cmds; [done |].
  rewrite collect_loop_cons. cbn [List.filter].
  destruct (w_getattr w name) as [a | e] eqn:Hget.
  - rewrite collect_loop_cons, Hget. apply IH.
  - destruct e; try (by rewrite collect_loop_cons, Hget).
    apply IH.
Qed.

(** X5. The collected dict does not depend on the order of [dir] or on
    repeated names: two widgets with the same attributes, whose [dir]
    list the same names and on which no access raises anything but
    [AssertionError], have the same commands. *)
Theorem collect_commands_order_irrelevant w1 w2 :
  (∀ name, name ∈ w_dir w1 ↔ name ∈ w_dir w2) →
  (∀ name, w_getattr w1 name = w_getattr w2 name) →
  (∀ name e, name ∈ w_dir w1 → w_getattr w1 name = Raise e → e = AssertionError) →
  _collect_commands w1 = _collect_commands w2.
Proof.
  intros Hdir Hget Hraise1.
  assert (Hraise2 : ∀ name e, name ∈ w_dir w2 →
            w_getattr w2 name = Raise e → e = AssertionError).
  { intros name e Hin. rewrite <- Hget. apply Hraise1. by apply Hdir. }
  destruct (collect_loop_lookup w1 (w_dir w1) Hraise1 ∅) as (cmds1 & Hrun1 & Hlook1).
  destruct (collect_loop_lookup w2 (w_dir w2) Hraise2 ∅) as (cmds2 & Hrun2 & Hlook2).
  unfold _collect_commands. rewrite Hrun1, Hrun2. f_equal.
  apply map_eq. intros name. rewrite Hlook1, Hlook2, <- Hget.
  by rewrite (bool_decide_ext _ _ (Hdir name)).
Qed.

(** X6. A callable tagged by [command] is collected under every name
    that a widget binds to it. *)
Theorem command_then_collect (heap : gmap loc (pyobj W)) (f : loc) o0 :
  heap !! f = Some o0 →
  callable o0 = true →
  ∃ heap' o,
    run (command f) heap = (Return f, heap') ∧
    heap' !! f = Some o ∧
    ∀ w name,
      name ∈ w_dir w →
      w_getattr w name = Return o →
      (∀ n e, n ∈ w_dir w → w_getattr w n = Raise e → e = AssertionError) →
      ∃ cmds, _collect_commands w = Return cmds ∧ cmds !! name = Some o.
Proof.
  intros Hf Hcall.
  exists (alter (set_attribute _ANYWIDGET_COMMAND (VBool true)) f heap),
         (set_attribute _ANYWIDGET_COMMAND (VBool true) o0).
  split; [reflexivity |]. split; [by rewrite lookup_alter_eq, Hf |].
  intros w name Hin Hget Hraise.
  destruct (collect_loop_lookup w (w_dir w) Hraise ∅) as (cmds & Hrun & Hlook).
  exists cmds. split; [exact Hrun |].
  rewrite Hlook, Hget, (bool_decide_eq_true_2 _ Hin).
  unfold callable, getattr_default, set_attribute, _ANYWIDGET_COMMAND in *. simpl.
  by rewrite Hcall, lookup_insert_eq.
Qed.

(** X7. A command message without ["id"] raises [KeyError] after the
    command has run: the command was called once, the widget state is
    what the command left, and nothing is sent. *)
Theorem dispatch_missing_id cmds N cmd f self d buffers arg h r b world' :
  cmds !! N = Some cmd →
  obj_call cmd = Some f →
  d !! "kind" = Some (VStr "anywidget-command") →
  d !! "name" = Some (VStr N) →
  d !! "msg" = Some arg →
  d !! "id" = None →
  run (f arg buffers) (world h) = (Return (r, b), world') →
  run (handle_anywidget_command cmds self (VDict d) buffers) h =
    (Raise (KeyError (VStr "id")),
     Host world' (calls h ++ [EvCall cmd arg buffers])).
Proof.
  intros HN Hf Hkind Hname Hmsg Hid Hrun.
  rewrite run_handle_command by done.
  rewrite run_bind, (run_getitem_Some d "name" (VStr N)) by done.
  rewrite run_bind, run_lift, (cmds_getitem_str cmds N cmd) by done.
  rewrite run_bind, (run_getitem_Some d "msg" arg) by done.
  rewrite run_bind, (run_call cmd f) by done. rewrite Hrun. cbn [fst snd].
  by rewrite run_bind, (run_getitem_None d "id").
Qed.

(** X8. Whatever the message, the handler either leaves the host as
    it was, returning [None] or raising, or calls one command of the
    map, named by the message, with [msg["msg"]] and the incoming
    buffers; after that call it either raises, or sends one response
    carrying [msg["id"]] to [self] and returns [None].  It makes no
    other call, and the calls made before are kept. *)
Theorem dispatch_calls_at_most_one_command cmds self msg buffers h :
  let out := run (handle_anywidget_command cmds self msg buffers) h in
  (snd out = h ∧ (fst out = Return VNone ∨ ∃ e, fst out = Raise e))
  ∨ ∃ d N cmd f arg,
      msg = VDict d ∧ d !! "name" = Some (VStr N) ∧ cmds !! N = Some cmd ∧
      obj_call cmd = Some f ∧ d !! "msg" = Some arg ∧
      world (snd out) = snd (run (f arg buffers) (world h)) ∧
      ((∃ e, fst out = Raise e ∧
             calls (snd out) = calls h ++ [EvCall cmd arg buffers])
       ∨ (∃ id r b,
             d !! "id" = Some id ∧
             fst (run (f arg buffers) (world h)) = Return (r, b) ∧
             fst out = Return VNone ∧
             calls (snd out) =
               calls h ++
                 [EvCall cmd arg buffers;
                  EvSend self
                    (VDict {[ "id" := id;
                              "kind" := VStr "anywidget-command-response";
                              "response" := r ]})
                    b])).
Proof.
  intros out. subst out. unfold handle_anywidget_command.
  destruct msg as [| | | | | d |]; try (left; split; [done | by left]).
  destruct (str_ne _ _); [left; split; [done | by left] |].
  rewrite !run_bind.
  destruct (d !! "name") as [v |] eqn:Hname.
  2: { rewrite !(run_getitem_None d "name") by done. left. split; [done | eauto]. }
  rewrite !(run_getitem_Some d "name" v) by done.
  rewrite !run_bind, !run_lift.
  destruct (cmds_getitem cmds v) as [cmd | e] eqn:Hcmd;
    [| left; split; [done | eauto]].
  apply cmds_getitem_Return in Hcmd as (N & -> & HN).
  rewrite !run_bind.
  destruct (d !! "msg") as [arg |] eqn:Hmsg.
  2: { rewrite !(run_getitem_None d "msg") by done. left. split; [done | eauto]. }
  rewrite !(run_getitem_Some d "msg" arg) by done.
  rewrite !run_bind.
  destruct (obj_call cmd) as [f |] eqn:Hf.
  2: { unfold call. rewrite Hf, !run_raise. left. split; [done | eauto]. }
  rewrite !(run_call cmd f) by done.
  right. exists d, N, cmd, f, arg.
  do 5 (split; [done |]).
  destruct (run (f arg buffers) (world h)) as [o1 world1]. cbn [fst snd].
  destruct o1 as [[r b] | e].
  2: { split; [done |]. left. eauto. }
  rewrite !run_bind.
  destruct (d !! "id") as [id |] eqn:Hid.
  2: { rewrite !(run_getitem_None d "id") by done. split; [done |]. left. eauto. }
  rewrite !(run_getitem_Some d "id" id) by done.
  rewrite !run_bind. unfold send. rewrite !run_log, !run_ret.
  cbn [fst snd world calls]. split; [done |]. right.
  exists id, r, b. do 3 (split; [done |]). by rewrite <- app_assoc.
Qed.

End EdgeBehaviour.

(** * The counter widget, run *)

Import Counter.

(** ** [widget], [dataclass], [command] on [heap0] *)


Lemma widget_css_keyword_witness :
  ∃ h' o' given,
    run (widget descriptor (VStr "index.js") VNone ∅ 1%positive) heap0
      = (Return 1%positive, h') ∧
    h' !! 1%positive = Some o' ∧
    obj_attrs o' !! "_repr_mimebundle_" = Some (descriptor given) ∧
    given !! "_esm" = Some (VStr "index.js") ∧
    (VNone = VNone → given !! "_css" = (∅ : gmap string pyval) !! "_css") ∧
    (VNone ≠ VNone → given !! "_css" = Some VNone).
Proof.
  apply (widget_css_keyword descriptor (VStr "index.js") VNone ∅ heap0 1%positive
           (PyObj {[ "__name__" := VStr "Counter" ]} (Some greet))).
  reflexivity.
Defined.

(** C8 as stated fails: with [css] left out and [_css] among the extra
    keyword arguments, the descriptor is built with a [_css] keyword
    argument. *)
Lemma widget_css_from_kwargs :
  run (widget descriptor (VStr "index.js") VNone {[ "_css" := VStr "extra.css" ]}
         1%positive) heap0 =
    (Return 1%positive,
     {[ 1%positive :=
          PyObj {[ "__name__" := VStr "Counter";
                   "_repr_mimebundle_" :=
                     descriptor {[ "_css" := VStr "extra.css";
                                   "_esm" := VStr "index.js" ]} ]}
                (Some greet);
        2%positive := PyObj {[ "__name__" := VStr "greet" ]} (Some greet) ]}).
Proof. vm_compute. reflexivity. Qed.


(** The three steps of [dataclass], with the stand-ins, on the class at
    location [1]. *)
Example dataclass_on_heap0 :
  run (dataclass descriptor make_dataclass make_evented (Some 1%positive)
         (VStr "index.js") VNone {[ "frozen" := VBool true ]}) heap0 =
    (Return (Class 1%positive),
     {[ 1%positive :=
          PyObj {[ "__dataclass_params__" := VDict {[ "frozen" := VBool true ]};
                   "__name__" := VStr "Counter";
                   "_repr_mimebundle_" := descriptor {[ "_esm" := VStr "index.js" ]};
                   "events" := VInstance "SignalGroupDescriptor" ∅ ]}
                (Some greet);
        2%positive := PyObj {[ "__name__" := VStr "greet" ]} (Some greet) ]}).
Proof. vm_compute. reflexivity. Qed.

(** ** [_collect_commands] and registration *)

Lemma counter_raises_assertions_only name e :
  name ∈ w_dir counter → w_getattr counter name = Raise e → e = AssertionError.
Proof.
  simpl. rewrite !elem_of_cons, elem_of_nil.
  intros [-> | [-> | [-> | [-> | [-> | [-> | []]]]]]]; simpl; congruence.
Qed.

Lemma collect_commands_exact_witness :
  ∃ cmds,
    _collect_commands counter = Return cmds ∧
    ∀ name a,
      cmds !! name = Some a ↔
        name ∈ w_dir counter ∧ w_getattr counter name = Return a ∧
        callable a = true ∧
        truthy (getattr_default a "_anywidget_command" (VBool false)) = true.
Proof.
  apply (collect_commands_exact counter).
  exact counter_raises_assertions_only.
Defined.

(** C4 as stated fails: on a widget with a property whose getter raises
    [NotImplementedError], [_collect_commands] raises and returns no
    dict. *)
Lemma collect_commands_propagates :
  _collect_commands broken = Raise (Exception "NotImplementedError").
Proof. vm_compute. reflexivity. Qed.

Lemma register_calls_on_msg_once_witness :
  (counter_cmds = ∅ →
     run (_register_anywidget_commands counter) fresh = (Return VNone, fresh)) ∧
  (counter_cmds ≠ ∅ →
     run (_register_anywidget_commands counter) fresh =
       (Return VNone,
        Host (world fresh)
          (calls fresh ++ [EvOnMsg counter (HandleAnywidgetCommand counter_cmds)]))).
Proof.
  apply (register_calls_on_msg_once counter counter_cmds fresh).
  vm_compute. reflexivity.
Defined.

(** C9 as stated fails: on the same widget
    [_register_anywidget_commands] raises and does not return [None]. *)
Lemma register_propagates :
  run (_register_anywidget_commands broken) fresh =
    (Raise (Exception "NotImplementedError"), fresh).
Proof. vm_compute. reflexivity. Qed.


(** ** The handler on [counter] *)

Example handle_call_greet :
  run (handle_anywidget_command counter_cmds counter (VDict call_greet) []) fresh =
    (Return VNone,
     Host 0
       [EvCall (tagged greet) (VInt 1) [];
        EvSend counter
          (VDict {[ "id" := VStr "a1";
                    "kind" := VStr "anywidget-command-response";
                    "response" := VList [VStr "hello"; VInt 1] ]})
          []]).
Proof. vm_compute. reflexivity. Qed.

Lemma dispatch_calls_command_then_sends_witness :
  ∃ f, obj_call (tagged greet) = Some f ∧
    ∀ r b world',
      run (f (VInt 1) []) (world fresh) = (Return (r, b), world') →
      run (handle_anywidget_command counter_cmds counter (VDict call_greet) []) fresh =
        (Return VNone,
         Host world'
           (calls fresh ++
              [EvCall (tagged greet) (VInt 1) [];
               EvSend counter
                 (VDict {[ "id" := VStr "a1";
                           "kind" := VStr "anywidget-command-response";
                           "response" := r ]})
                 b])).
Proof.
  apply (dispatch_calls_command_then_sends counter counter_cmds "greet"
           (tagged greet) counter call_greet [] (VInt 1) (VStr "a1") fresh);
    vm_compute; reflexivity.
Defined.

(** C1 as stated fails.  Both messages are dicts with [kind] equal to
    ["anywidget-command"] and [name] equal to ["greet"], a collected
    command.  On the one without [msg] the handler raises [KeyError]
    before any call; on the one without [id] it calls the command and
    raises [KeyError] without calling [send]. *)
Lemma dispatch_missing_keys :
  _collect_commands counter = Return counter_cmds ∧
  counter_cmds !! "greet" = Some (tagged greet) ∧
  no_payload !! "kind" = Some (VStr "anywidget-command") ∧
  no_payload !! "name" = Some (VStr "greet") ∧
  run (handle_anywidget_command counter_cmds counter (VDict no_payload) []) fresh =
    (Raise (KeyError (VStr "msg")), fresh) ∧
  no_id !! "kind" = Some (VStr "anywidget-command") ∧
  no_id !! "name" = Some (VStr "greet") ∧
  run (handle_anywidget_command counter_cmds counter (VDict no_id) []) fresh =
    (Raise (KeyError (VStr "id")),
     Host 0 [EvCall (tagged greet) (VInt 1) []]).
Proof. repeat split; vm_compute; reflexivity. Qed.

Lemma dispatch_unknown_name_witness :
  run (handle_anywidget_command counter_cmds counter (VDict call_reset) []) fresh =
    (Raise match call_reset !! "name" with
           | None => KeyError (VStr "name")
           | Some v => if hashable v then KeyError v
                       else TypeError "unhashable type"
           end, fresh).
Proof.
  apply (dispatch_unknown_name counter_cmds counter call_reset [] fresh).
  - vm_compute. reflexivity.
  - intros N HN. vm_compute in HN. injection HN as <-. vm_compute. reflexivity.
Defined.

(** C5 as stated fails: [counter] has commands, the message is a dict
    with [kind] equal to ["anywidget-command"] and its [name], a list,
    is not a key of the command map; the handler raises [TypeError],
    which is no [KeyError]. *)
Lemma dispatch_unhashable_name :
  _collect_commands counter = Return counter_cmds ∧
  counter_cmds !! "greet" = Some (tagged greet) ∧
  list_name !! "kind" = Some (VStr "anywidget-command") ∧
  list_name !! "name" = Some (VList [VStr "greet"]) ∧
  run (handle_anywidget_command counter_cmds counter (VDict list_name) []) fresh =
    (Raise (TypeError "unhashable type"), fresh) ∧
  (∀ key, TypeError "unhashable type" ≠ KeyError key).
Proof. repeat split; try (vm_compute; reflexivity). discriminate. Qed.

Lemma dispatch_ignores_other_messages_witness :
  run (handle_anywidget_command counter_cmds counter (VDict custom) []) used =
    (Return VNone, used).
Proof.
  apply (dispatch_ignores_other_messages counter_cmds counter (VDict custom) [] used).
  intros d Hd. injection Hd as <-. vm_compute. discriminate.
Defined.

Lemma dispatch_is_stateless_witness :
  ∃ evs,
    fst (run (handle_anywidget_command {[ "greet" := tagged greet ]} counter
                (VDict call_greet) []) fresh) =
      fst (run (handle_anywidget_command {[ "greet" := tagged greet ]} counter
                  (VDict call_greet) []) used) ∧
    calls (snd (run (handle_anywidget_command {[ "greet" := tagged greet ]} counter
                       (VDict call_greet) []) fresh)) =
      calls fresh ++ evs ∧
    calls (snd (run (handle_anywidget_command {[ "greet" := tagged greet ]} counter
                       (VDict call_greet) []) used)) =
      calls used ++ evs.
Proof.
  apply (dispatch_is_stateless {[ "greet" := tagged greet ]} counter
           (VDict call_greet) [] fresh used).
  intros N cmd f arg bufs world1 world2 HN Hf.
  apply lookup_singleton_Some in HN as [_ <-].
  injection Hf as <-. reflexivity.
Defined.

(** [increment] reads the count: the same message is answered
    differently from two hosts, so C10 needs its premise. *)
Example increment_depends_on_state :
  run (handle_anywidget_command counter_cmds counter (VDict call_increment) []) fresh =
    (Return VNone,
     Host 1
       [EvCall (tagged increment) VNone [];
        EvSend counter
          (VDict {[ "id" := VStr "b1";
                    "kind" := VStr "anywidget-command-response";
                    "response" := VInt 1 ]})
          []]) ∧
  run (handle_anywidget_command counter_cmds counter (VDict call_increment) []) used =
    (Return VNone,
     Host 3
       (calls used ++
          [EvCall (tagged increment) VNone [];
           EvSend counter
             (VDict {[ "id" := VStr "b1";
                       "kind" := VStr "anywidget-command-response";
                       "response" := VInt 3 ]})
             []])).
Proof. split; vm_compute; reflexivity. Qed.

(** ** Exceptions that leave the module, on [counter] and [broken] *)

Lemma collect_commands_raises_witness :
  _collect_commands broken = Raise (Exception "NotImplementedError").
Proof.
  apply (collect_commands_raises broken ["greet"] "layout" ["value"]).
  - reflexivity.
  - intros n e'. rewrite list_elem_of_singleton. intros ->. simpl. discriminate.
  - reflexivity.
  - discriminate.
Defined.

Lemma dispatch_command_raises_witness :
  run (handle_anywidget_command counter_cmds counter
         (VDict (<["name" := VStr "fail"]> call_greet)) []) used =
    (Raise (Exception "ValueError"),
     Host 2 (calls used ++ [EvCall (tagged failing) (VInt 1) []])).
Proof.
  apply (dispatch_command_raises counter_cmds "fail" (tagged failing) failing
           counter (<["name" := VStr "fail"]> call_greet) [] (VInt 1) used
           (Exception "ValueError") 2);
    vm_compute; reflexivity.
Defined.

(** ** Composition and edge behaviour, on [heap0] and [counter] *)

Lemma dataclass_stores_assets_only_witness :
  ∃ h3 o',
    run (dataclass descriptor make_dataclass make_evented (Some 1%positive)
           (VStr "index.js") VNone {[ "frozen" := VBool true ]}) heap0 =
      (Return (Class 1%positive), h3) ∧
    h3 !! 1%positive = Some o' ∧
    obj_attrs o' !! "_repr_mimebundle_" =
      Some (descriptor
              (if is_none VNone then {[ "_esm" := VStr "index.js" ]}
               else {[ "_css" := VNone; "_esm" := VStr "index.js" ]})) ∧
    (∀ name, name ≠ "_repr_mimebundle_" →
       obj_attrs o' !! name =
         obj_attrs
           (PyObj {[ "__dataclass_params__" := VDict {[ "frozen" := VBool true ]};
                     "__name__" := VStr "Counter";
                     "events" := VInstance "SignalGroupDescriptor" ∅ ]}
                  (Some greet)) !! name) ∧
    obj_call o' = Some greet ∧
    (∀ l, l ≠ 1%positive →
       h3 !! l =
         snd (run (make_evented 1%positive)
                (snd (run (make_dataclass 1%positive {[ "frozen" := VBool true ]})
                        heap0))) !! l).
Proof.
  apply (dataclass_stores_assets_only descriptor make_dataclass make_evented
           (VStr "index.js") VNone {[ "frozen" := VBool true ]} heap0
           1%positive 1%positive
           (snd (run (make_dataclass 1%positive {[ "frozen" := VBool true ]}) heap0))
           1%positive
           (snd (run (make_evented 1%positive)
                   (snd (run (make_dataclass 1%positive {[ "frozen" := VBool true ]})
                           heap0))))
           (PyObj {[ "__dataclass_params__" := VDict {[ "frozen" := VBool true ]};
                     "__name__" := VStr "Counter";
                     "events" := VInstance "SignalGroupDescriptor" ∅ ]}
                  (Some greet)));
    vm_compute; reflexivity.
Defined.

Lemma shuffled_raises_assertions_only name e :
  name ∈ w_dir shuffled → w_getattr shuffled name = Raise e → e = AssertionError.
Proof.
  simpl. rewrite !elem_of_cons, elem_of_nil.
  intros [-> | [-> | [-> | [-> | [-> | [-> | [-> | []]]]]]]]; simpl; congruence.
Qed.

Lemma collect_commands_order_irrelevant_witness :
  _collect_commands shuffled = _collect_commands counter.
Proof.
  apply (collect_commands_order_irrelevant shuffled counter).
  - intros name. simpl. rewrite !elem_of_cons, elem_of_nil. tauto.
  - reflexivity.
  - exact shuffled_raises_assertions_only.
Defined.

Lemma command_then_collect_witness :
  ∃ heap' o,
    run (command 2%positive) heap0 = (Return 2%positive, heap') ∧
    heap' !! 2%positive = Some o ∧
    ∃ cmds, _collect_commands (exposing o) = Return cmds ∧ cmds !! "run" = Some o.
Proof.
  destruct (command_then_collect heap0 2%positive
              (PyObj {[ "__name__" := VStr "greet" ]} (Some greet))
              eq_refl eq_refl) as (heap' & o & Hrun & Ho & Hcollect).
  exists heap', o. split; [exact Hrun |]. split; [exact Ho |].
  apply Hcollect.
  - apply list_elem_of_here.
  - reflexivity.
  - intros n e. simpl. rewrite list_elem_of_singleton. intros ->. simpl. discriminate.
Defined.

Lemma dispatch_missing_id_witness :
  run (handle_anywidget_command counter_cmds counter (VDict increment_no_id) []) fresh =
    (Raise (KeyError (VStr "id")),
     Host 1 (calls fresh ++ [EvCall (tagged increment) VNone []])).
Proof.
  apply (dispatch_missing_id counter_cmds "increment" (tagged increment) increment
           counter increment_no_id [] VNone fresh (VInt 1) [] 1);
    vm_compute; reflexivity.
Defined.
